(** * SidebarProvider: the view-synchronisation controller of Sapling

    A shallow embedding of [src/sapling/src/SidebarProvider.ts].  The class
    keeps one parser (the tree session) and talks to a webview through
    [postMessage].  Its methods and the listeners that [resolveWebviewView]
    registers are embedded as computations in a small state-and-exception
    monad that also records the calls made to the host (messages posted,
    documents opened), so that "what was sent, in which order" and "did the
    handler throw" are ordinary equations on results.

    A handler is run to completion.  The message handler is [async], so
    what it throws rejects its promise; the two cases that [await] assign
    no field of the class. *)

From Stdlib Require Import String List Bool ZArith Lia.
Import ListNotations.
Open Scope string_scope.

Set Implicit Arguments.

(** ** JavaScript values carried by webview messages

    The message handler receives [data] untyped ([any]): it reads
    [data.type], [data.value], [data.value.id] and [data.value.expanded]
    and tests [!data.value].  Values are therefore kept untyped here too. *)

#[warnings="-register-all"]
Inductive Value : Type :=
| VUndefined
| VNull
| VBool (b : bool)
| VNum (n : Z)
| VStr (s : string)
| VObj (fields : list (string * Value)).

(** ToBoolean: what [!v] negates. *)
Definition truthy (v : Value) : bool :=
  match v with
  | VUndefined | VNull => false
  | VBool b => b
  | VNum n => negb (Z.eqb n 0)
  | VStr s => negb (String.eqb s "")
  | VObj _ => true
  end.

Fixpoint lookup_field (k : string) (fields : list (string * Value)) : Value :=
  match fields with
  | [] => VUndefined
  | (k', v) :: rest => if String.eqb k k' then v else lookup_field k rest
  end.

(** What can be thrown out of a handler: a [TypeError] of the language
    (member access on [undefined] or [null]) or a rejection of an awaited
    host call. *)
Inductive Error : Type :=
| TypeError
| HostRejected.

Inductive Outcome (A : Type) : Type :=
| Returned (a : A)
| Thrown (e : Error).
Arguments Thrown {A} e.

(** Member access [v.k].  On [undefined] and [null] it throws; on an object
    it reads the field ([undefined] when absent); the primitives carry none
    of the four keys the controller reads. *)
Definition get_prop (v : Value) (k : string) : Outcome Value :=
  match v with
  | VUndefined | VNull => Thrown TypeError
  | VObj fields => Returned (lookup_field k fields)
  | VBool _ | VNum _ | VStr _ => Returned VUndefined
  end.

(** [v === "lit"] for a string literal, the test of each [case] label. *)
Definition is_string (v : Value) (lit : string) : bool :=
  match v with
  | VStr s => String.eqb s lit
  | _ => false
  end.

(** ** The host: documents, editors, settings *)

Record TextDocument : Type := { fileName : string }.
Record TextEditor : Type := { document : TextDocument }.
Record WorkspaceConfiguration : Type := { view : Value }.

(** A webview view is known by its identity: the listeners close over the
    [webviewView] they were registered for, the class keeps one in
    [_view], and the two need not be the same object. *)
Definition WebviewView : Type := nat.

(** ** The parser, an external collaborator

    [./parser] is imported but is not part of the controller; the
    controller only calls its constructor, four methods and reads
    [tree.fileName].  Its state is threaded explicitly: a method that
    mutates the parser object returns the new state of that object. *)
Class SaplingParserAPI : Type := {
  ParserState : Type;
  Tree : Type;
  (** what [parse] and [updateTree] read from the disk *)
  FileSystem : Type;
  (** [new SaplingParser(filePath)] *)
  construct : Value -> ParserState;
  (** [parser.parse()] *)
  parse : FileSystem -> ParserState -> ParserState * Tree;
  (** [parser.updateTree(filePath)] *)
  updateTree : FileSystem -> string -> ParserState -> ParserState * Tree;
  (** [parser.getTree()] *)
  getTree : ParserState -> Tree;
  (** [parser.toggleNode(id, expanded)], result discarded by the caller *)
  toggleNode : Value -> Value -> ParserState -> ParserState;
  (** the field [parser.tree] *)
  tree : ParserState -> Tree;
  (** the field [tree.fileName] *)
  tree_fileName : Tree -> string
}.

Section Controller.

Context {P : SaplingParserAPI}.

(** A parser object: the identity [new] gave it and its current state. *)
Record SaplingParser : Type := {
  oid : nat;
  obj : ParserState
}.

(** The fields of the class. *)
Record SidebarProvider : Type := {
  _view : option WebviewView;
  _doc : option TextDocument;
  parser : option SaplingParser
}.

(** The controller together with the number of parser objects allocated so
    far, from which [new] draws the next identity. *)
Record World : Type := {
  this : SidebarProvider;
  allocated : nat
}.

(** The environment as one handler run sees it. *)
Record Host : Type := {
  activeTextEditor : option TextEditor;
  getConfiguration : string -> WorkspaceConfiguration;
  visible : WebviewView -> bool;
  (** [None]: the promise rejects *)
  openTextDocument : Value -> option TextDocument;
  (** [false]: the promise rejects *)
  showTextDocument : TextDocument -> bool;
  fs : FileSystem
}.

(** ** Outbound messages *)

Inductive Payload : Type :=
| PTree (t : Tree)
| PString (s : string)
| PValue (v : Value).

Record Message : Type := {
  msg_type : string;
  msg_value : Payload
}.

Inductive Subscription : Type :=
| OnDidChangeConfiguration
| OnDidChangeActiveTextEditor
| OnDidSaveTextDocument
| OnDidReceiveMessage
| OnDidChangeVisibility
| OnDidDispose.

(** Calls that leave the controller. *)
Inductive Effect : Type :=
| ConsoleLog (s : string)
| SetOptions (w : WebviewView)
| SetHtml (w : WebviewView)
| Subscribe (w : WebviewView) (ev : Subscription)
| PostMessage (w : WebviewView) (m : Message)
| OpenTextDocument (path : Value)
| ShowTextDocument (d : TextDocument).

(** ** The monad of handlers

    A computation takes the world and gives the world it leaves, the
    effects it performed in order and either a value or the error it threw.
    A throw keeps the state and the effects reached so far: nothing is
    rolled back. *)
Record Result (A : Type) : Type := {
  final : World;
  trace : list Effect;
  outcome : Outcome A
}.

Definition M (A : Type) : Type := World -> Result A.

Definition ret {A} (a : A) : M A :=
  fun w => {| final := w; trace := []; outcome := Returned a |}.

Definition throw {A} (e : Error) : M A :=
  fun w => {| final := w; trace := []; outcome := Thrown e |}.

Definition bind {A B} (m : M A) (k : A -> M B) : M B :=
  fun w =>
    match m w with
    | {| final := w1; trace := t1; outcome := Returned a |} =>
        match k a w1 with
        | {| final := w2; trace := t2; outcome := o |} =>
            {| final := w2; trace := t1 ++ t2; outcome := o |}
        end
    | {| final := w1; trace := t1; outcome := Thrown e |} =>
        {| final := w1; trace := t1; outcome := Thrown e |}
    end.

Notation "x <- m ;; k" := (bind m (fun x => k))
  (at level 61, m at next level, right associativity).
Notation "m ;;; k" := (bind m (fun _ => k))
  (at level 61, right associativity).

Definition emit (e : Effect) : M unit :=
  fun w => {| final := w; trace := [e]; outcome := Returned tt |}.

Definition of_outcome {A} (o : Outcome A) : M A :=
  match o with
  | Returned a => ret a
  | Thrown e => throw e
  end.

(** [optional.member] on a host or class field that may be [undefined]. *)
Definition deref {A} (o : option A) : M A :=
  match o with
  | Some a => ret a
  | None => throw TypeError
  end.

Definition get_this : M SidebarProvider :=
  fun w => {| final := w; trace := []; outcome := Returned (this w) |}.

(** Field assignments. *)
Definition with_view (w : World) (v : WebviewView) : World :=
  {| this := {| _view := Some v; _doc := _doc (this w);
                parser := parser (this w) |};
     allocated := allocated w |}.

Definition with_parser (w : World) (p : SaplingParser) : World :=
  {| this := {| _view := _view (this w); _doc := _doc (this w);
                parser := Some p |};
     allocated := allocated w |}.

(** [this.parser = new SaplingParser(filePath)] in world [w]: the new
    object takes the next identity. *)
Definition with_new_parser (w : World) (st : ParserState) : World :=
  {| this := {| _view := _view (this w); _doc := _doc (this w);
                parser := Some {| oid := allocated w; obj := st |} |};
     allocated := S (allocated w) |}.

Definition set_view (v : WebviewView) : M unit :=
  fun w => {| final := with_view w v; trace := []; outcome := Returned tt |}.

Definition set_parser (p : SaplingParser) : M unit :=
  fun w => {| final := with_parser w p; trace := []; outcome := Returned tt |}.

Definition new_parser (filePath : Value) : M unit :=
  fun w =>
    {| final := with_new_parser w (construct filePath);
       trace := []; outcome := Returned tt |}.

(** [this.parser.method(...)]: throws when [this.parser] is [undefined],
    before any argument is evaluated; otherwise the method runs on the
    object, which keeps its identity. *)
Definition this_parser : M SaplingParser :=
  t <- get_this ;; deref (parser t).

Definition call_parser {A} (method : ParserState -> ParserState * A) : M A :=
  p <- this_parser ;;
  let r := method (obj p) in
  set_parser {| oid := oid p; obj := fst r |} ;;;
  ret (snd r).

(** A read of the parser object that leaves it as it is: [getTree()] and
    the field path [this.parser.tree.fileName]. *)
Definition read_parser {A} (field : ParserState -> A) : M A :=
  p <- this_parser ;;
  ret (field (obj p)).

(** [await] of a host promise. *)
Definition await {A} (o : option A) : M A :=
  match o with
  | Some a => ret a
  | None => throw HostRejected
  end.

(** [webviewView.webview.postMessage(m)] on the view the listener closed
    over. *)
Definition postMessage (w : WebviewView) (m : Message) : M unit :=
  emit (PostMessage w m).

(** [this._view.webview.postMessage(m)]: the field is read first. *)
Definition view_postMessage (m : Message) : M unit :=
  t <- get_this ;;
  w <- deref (_view t) ;;
  postMessage w m.

(** ** [resolveWebviewView] and the listeners it registers *)

Definition resolveWebviewView (webviewView : WebviewView) : M unit :=
  set_view webviewView ;;;
  emit (ConsoleLog "WebView Initialized!") ;;;
  emit (SetOptions webviewView) ;;;
  emit (Subscribe webviewView OnDidChangeConfiguration) ;;;
  emit (Subscribe webviewView OnDidChangeActiveTextEditor) ;;;
  emit (Subscribe webviewView OnDidSaveTextDocument) ;;;
  emit (SetHtml webviewView) ;;;
  emit (Subscribe webviewView OnDidReceiveMessage) ;;;
  emit (Subscribe webviewView OnDidChangeVisibility) ;;;
  emit (Subscribe webviewView OnDidDispose).

(** [vscode.workspace.onDidChangeConfiguration((e) => ...)] *)
Definition onDidChangeConfiguration (webviewView : WebviewView) (h : Host)
  : M unit :=
  let settings := getConfiguration h "sapling" in
  postMessage webviewView
    {| msg_type := "settings-data"; msg_value := PValue (view settings) |}.

(** [vscode.window.onDidChangeActiveTextEditor((e) => ...)] *)
Definition onDidChangeActiveTextEditor (webviewView : WebviewView)
  (e : option TextEditor) : M unit :=
  match e with
  | None => ret tt
  | Some e =>
      postMessage webviewView
        {| msg_type := "current-tab";
           msg_value := PString (fileName (document e)) |}
  end.

(** [vscode.workspace.onDidSaveTextDocument((document) => ...)] *)
Definition onDidSaveTextDocument (webviewView : WebviewView) (h : Host)
  (document : TextDocument) : M unit :=
  t <- get_this ;;
  match parser t with
  | None => ret tt
  | Some _ =>
      parsed <- call_parser (updateTree (fs h) (fileName document)) ;;
      if visible h webviewView then
        postMessage webviewView
          {| msg_type := "parsed-data"; msg_value := PTree parsed |}
      else ret tt
  end.

(** The body of each [case] of the message switch. *)

Definition case_onFile (webviewView : WebviewView) (h : Host) (data : Value)
  : M unit :=
  value <- of_outcome (get_prop data "value") ;;
  if negb (truthy value) then ret tt
  else
    new_parser value ;;;
    parsed <- call_parser (parse (fs h)) ;;
    postMessage webviewView
      {| msg_type := "parsed-data"; msg_value := PTree parsed |}.

Definition case_onViewFile (h : Host) (data : Value) : M unit :=
  value <- of_outcome (get_prop data "value") ;;
  if negb (truthy value) then ret tt
  else
    emit (OpenTextDocument value) ;;;
    doc <- await (openTextDocument h value) ;;
    emit (ShowTextDocument doc) ;;;
    if showTextDocument h doc then ret tt else throw HostRejected.

Definition case_onSaplingVisible (webviewView : WebviewView) : M unit :=
  t <- get_this ;;
  match parser t with
  | None => ret tt
  | Some _ =>
      parsed <- read_parser getTree ;;
      postMessage webviewView
        {| msg_type := "parsed-data"; msg_value := PTree parsed |} ;;;
      shortFileName <- read_parser (fun st => tree_fileName (tree st)) ;;
      postMessage webviewView
        {| msg_type := "saved-file"; msg_value := PString shortFileName |}
  end.

Definition case_onSettingsAcquire (webviewView : WebviewView) (h : Host)
  : M unit :=
  let settings := getConfiguration h "sapling" in
  postMessage webviewView
    {| msg_type := "settings-data"; msg_value := PValue (view settings) |}.

Definition case_onNodeToggle (data : Value) : M unit :=
  p <- this_parser ;;
  value <- of_outcome (get_prop data "value") ;;
  id <- of_outcome (get_prop value "id") ;;
  value' <- of_outcome (get_prop data "value") ;;
  expanded <- of_outcome (get_prop value' "expanded") ;;
  set_parser {| oid := oid p; obj := toggleNode id expanded (obj p) |}.

Definition case_onBoldCheck (h : Host) : M unit :=
  e <- deref (activeTextEditor h) ;;
  let fileName := fileName (document e) in
  view_postMessage
    {| msg_type := "current-tab"; msg_value := PString fileName |}.

(** [webviewView.webview.onDidReceiveMessage(async (data) => ...)]: the
    switch on [data.type]; a type that matches no label does nothing. *)
Definition onDidReceiveMessage (webviewView : WebviewView) (h : Host)
  (data : Value) : M unit :=
  type <- of_outcome (get_prop data "type") ;;
  if is_string type "onFile" then case_onFile webviewView h data
  else if is_string type "onViewFile" then case_onViewFile h data
  else if is_string type "onSaplingVisible" then case_onSaplingVisible webviewView
  else if is_string type "onSettingsAcquire" then case_onSettingsAcquire webviewView h
  else if is_string type "onNodeToggle" then case_onNodeToggle data
  else if is_string type "onBoldCheck" then case_onBoldCheck h
  else ret tt.

(** [webviewView.onDidChangeVisibility] and [webviewView.onDidDispose]
    have empty bodies. *)
Definition onDidChangeVisibility : M unit := ret tt.
Definition onDidDispose : M unit := ret tt.

(** ** The other public members *)

Definition statusButtonClicked (h : Host) : M unit :=
  e <- deref (activeTextEditor h) ;;
  let fileName := fileName (document e) in
  if truthy (VStr fileName) then
    new_parser (VStr fileName) ;;;
    call_parser (parse (fs h)) ;;;
    parsed <- read_parser getTree ;;
    view_postMessage
      {| msg_type := "parsed-data"; msg_value := PTree parsed |} ;;;
    shortFileName <- read_parser (fun st => tree_fileName (tree st)) ;;
    view_postMessage
      {| msg_type := "saved-file"; msg_value := PString shortFileName |}
  else ret tt.

Definition revive (panel : WebviewView) : M unit :=
  set_view panel.

(** ** Everything that can happen to a controller

    A listener runs for the view it was registered with. *)
Inductive Operation : Type :=
| ResolveWebviewView (webviewView : WebviewView)
| Revive (panel : WebviewView)
| StatusButtonClicked
| ConfigurationChanged (webviewView : WebviewView)
| ActiveTextEditorChanged (webviewView : WebviewView) (e : option TextEditor)
| TextDocumentSaved (webviewView : WebviewView) (document : TextDocument)
| MessageReceived (webviewView : WebviewView) (data : Value)
| VisibilityChanged (webviewView : WebviewView)
| Disposed (webviewView : WebviewView).

Definition run (h : Host) (op : Operation) : M unit :=
  match op with
  | ResolveWebviewView w => resolveWebviewView w
  | Revive panel => revive panel
  | StatusButtonClicked => statusButtonClicked h
  | ConfigurationChanged w => onDidChangeConfiguration w h
  | ActiveTextEditorChanged w e => onDidChangeActiveTextEditor w e
  | TextDocumentSaved w d => onDidSaveTextDocument w h d
  | MessageReceived w data => onDidReceiveMessage w h data
  | VisibilityChanged _ => onDidChangeVisibility
  | Disposed _ => onDidDispose
  end.

(** The events are handled one after the other, each in the environment
    of its moment; a handler that throws does not stop the next one. *)
Fixpoint run_all (events : list (Host * Operation)) (w : World) : World :=
  match events with
  | [] => w
  | (h, op) :: rest => run_all rest (final (run h op w))
  end.

(** A controller just constructed. *)
Definition new_SidebarProvider : World :=
  {| this := {| _view := None; _doc := None; parser := None |};
     allocated := 0 |}.

(** A message [{type, value}] as the webview posts it. *)
Definition message (type : string) (value : Value) : Value :=
  VObj [("type", VStr type); ("value", value)].

(** ** Vocabulary of the properties *)

(** The result of a handler that returned without touching anything. *)
Definition noop (w : World) : Result unit :=
  {| final := w; trace := []; outcome := Returned tt |}.

(** The messages posted during a run, whatever the view. *)
Fixpoint posted (t : list Effect) : list Message :=
  match t with
  | [] => []
  | PostMessage _ m :: rest => m :: posted rest
  | _ :: rest => posted rest
  end.

Definition parsed_data (t : Tree) : Message :=
  {| msg_type := "parsed-data"; msg_value := PTree t |}.
Definition saved_file (name : string) : Message :=
  {| msg_type := "saved-file"; msg_value := PString name |}.
Definition current_tab (path : string) : Message :=
  {| msg_type := "current-tab"; msg_value := PString path |}.
Definition settings_data (v : Value) : Message :=
  {| msg_type := "settings-data"; msg_value := PValue v |}.

(** The operations that assign [this.parser]. *)
Definition replaces_parser (op : Operation) : Prop :=
  match op with
  | StatusButtonClicked => True
  | MessageReceived _ data => get_prop data "type" = Returned (VStr "onFile")
  | _ => False
  end.

(** A computation respects a relation on worlds when the world it leaves,
    by a return or by a throw, is related to the world it started in. *)
Definition respects (R : World -> World -> Prop) {A} (m : M A) : Prop :=
  forall w, R w (final (m w)).

(** The parser, if there is one, is still there. *)
Definition stays_bound (w w' : World) : Prop :=
  parser (this w) <> None -> parser (this w') <> None.

(** The parser, if there is one, is still the same object. *)
Definition same_parser_object (w w' : World) : Prop :=
  forall p, parser (this w) = Some p ->
            exists p', parser (this w') = Some p' /\ oid p' = oid p.

(** ** Vocabulary of the further properties *)

(** The labels of the message switch. *)
Definition case_labels : list string :=
  ["onFile"; "onViewFile"; "onSaplingVisible"; "onSettingsAcquire";
   "onNodeToggle"; "onBoldCheck"].

Definition known_type (type : Value) : bool :=
  existsb (is_string type) case_labels.

(** The same host with the views shown or hidden as [shown] says. *)
Definition with_visible (h : Host) (shown : WebviewView -> bool) : Host :=
  {| activeTextEditor := activeTextEditor h;
     getConfiguration := getConfiguration h;
     visible := shown;
     openTextDocument := openTextDocument h;
     showTextDocument := showTextDocument h;
     fs := fs h |}.

(** The four outbound messages, each with the kind of value it carries. *)
Definition well_formed (m : Message) : bool :=
  match msg_value m with
  | PTree _ => String.eqb (msg_type m) "parsed-data"
  | PString _ =>
      String.eqb (msg_type m) "saved-file"
      || String.eqb (msg_type m) "current-tab"
  | PValue _ => String.eqb (msg_type m) "settings-data"
  end.

(** The views messages were posted to during a run, in order. *)
Fixpoint targets (t : list Effect) : list WebviewView :=
  match t with
  | [] => []
  | PostMessage w _ :: rest => w :: targets rest
  | _ :: rest => targets rest
  end.

(** The view a listener closed over, for the operations that are
    listeners. *)
Definition listener_view (op : Operation) : option WebviewView :=
  match op with
  | ConfigurationChanged w | ActiveTextEditorChanged w _
  | TextDocumentSaved w _ | MessageReceived w _
  | VisibilityChanged w | Disposed w => Some w
  | ResolveWebviewView _ | Revive _ | StatusButtonClicked => None
  end.

(** The view an operation assigns to [this._view], if it assigns one. *)
Definition assigned_view (op : Operation) : option WebviewView :=
  match op with
  | ResolveWebviewView w | Revive w => Some w
  | _ => None
  end.

Definition is_save (op : Operation) : bool :=
  match op with
  | TextDocumentSaved _ _ => true
  | _ => false
  end.

Definition is_post (e : Effect) : bool :=
  match e with
  | PostMessage _ _ => true
  | _ => false
  end.

(** A computation emits only [Q]-effects when it leaves [this._view] as it
    is and each effect it performs satisfies [Q], which may refer to that
    view. *)
Definition emits (Q : option WebviewView -> Effect -> Prop) {A} (m : M A)
  : Prop :=
  forall w,
    _view (this (final (m w))) = _view (this w) /\
    Forall (Q (_view (this w))) (trace (m w)).

(** Whatever is posted is a message of the protocol. *)
Definition posts_well_formed (_ : option WebviewView) (e : Effect) : Prop :=
  match e with
  | PostMessage _ m => well_formed m = true
  | _ => True
  end.


(** The fields no handler assigns. *)
Definition same_doc (w w' : World) : Prop :=
  _doc (this w') = _doc (this w).


End Controller.

(** ** A parser to run the controller on *)

(** Modelled from the spec: [./parser] (the class [SaplingParser]) is not
    among the sources.  The spec gives its surface: a constructor that binds
    a parse session to a file, [parse] (full parse of the bound file),
    [updateTree] (re-derive the tree, keeping the expand/collapse state),
    [getTree] (last computed tree, no recomputation), [toggleNode] (set one
    node's flag in place) and the display name of the bound file.  A tree is
    reduced to what these operations can tell apart: the name of the file,
    the revision of the contents it was derived from and the toggles
    recorded since the last full parse.  The properties of the controller
    are proved for every parser; this one only serves to run it. *)
Module SpecParser.

Record tree_t : Type := {
  t_fileName : string;
  t_revision : nat;
  t_toggles : list (Value * Value)
}.

Record state_t : Type := {
  entryFile : Value;
  current : tree_t
}.

(** The contents of a file, told apart by a revision number. *)
Definition fs_t : Type := string -> nat.

Definition path_of (v : Value) : string :=
  match v with
  | VStr s => s
  | _ => ""
  end.

Definition bindFile (filePath : Value) : state_t :=
  {| entryFile := filePath;
     current := {| t_fileName := ""; t_revision := 0; t_toggles := [] |} |}.

Definition fullParse (disk : fs_t) (st : state_t) : state_t * tree_t :=
  let t := {| t_fileName := path_of (entryFile st);
              t_revision := disk (path_of (entryFile st));
              t_toggles := [] |} in
  ({| entryFile := entryFile st; current := t |}, t).

Definition rederive (disk : fs_t) (filePath : string) (st : state_t)
  : state_t * tree_t :=
  if String.eqb filePath (path_of (entryFile st)) then
    let t := {| t_fileName := t_fileName (current st);
                t_revision := disk filePath;
                t_toggles := t_toggles (current st) |} in
    ({| entryFile := entryFile st; current := t |}, t)
  else (st, current st).

Definition flip (id expanded : Value) (st : state_t) : state_t :=
  {| entryFile := entryFile st;
     current := {| t_fileName := t_fileName (current st);
                   t_revision := t_revision (current st);
                   t_toggles := (id, expanded) :: t_toggles (current st) |} |}.

(** Modelled from the spec: the parser surface of its section on external
    interfaces, filled with the functions above. *)
#[export] Instance api : SaplingParserAPI := {|
  ParserState := state_t;
  Tree := tree_t;
  FileSystem := fs_t;
  construct := bindFile;
  parse := fullParse;
  updateTree := rederive;
  getTree := current;
  toggleNode := flip;
  tree := current;
  tree_fileName := t_fileName
|}.

(** An editor on [path]. *)
Definition editing (path : string) : TextEditor :=
  {| document := {| fileName := path |} |}.

(** A host in which [active] is the active editor, view [0] is shown or
    hidden as [shown] says, every file is at revision [7] and every
    document can be opened. *)
Definition host (active : option TextEditor) (shown : bool) : Host :=
  {| activeTextEditor := active;
     getConfiguration := fun _ => {| view := VStr "tree" |};
     visible := fun _ => shown;
     openTextDocument := fun v => Some {| fileName := path_of v |};
     showTextDocument := fun _ => true;
     fs := fun _ => 7 |}.

(** The document and the editor the runs below save and activate. *)
Definition App : TextDocument := {| fileName := "App.jsx" |}.
Definition untitled : TextEditor := editing "".

(** A controller whose view [0] is resolved and whose parser, the first
    one allocated, has parsed [path]. *)
Definition bound (path : string) : World :=
  final (onDidReceiveMessage 0 (host None true) (message "onFile" (VStr path))
           (final (resolveWebviewView 0 new_SidebarProvider))).

End SpecParser.

(** * Properties of the controller *)

Section Properties.

Context {P : SaplingParserAPI}.

Implicit Types (s : World) (h : Host) (w : WebviewView) (data : Value).

(** ** How the switch dispatches *)

Ltac unfold_monad :=
  unfold bind, ret, throw, emit, of_outcome, deref, await, get_this,
    set_view, set_parser, new_parser, postMessage; cbn.

Lemma dispatch type w h data s :
  get_prop data "type" = Returned type ->
  onDidReceiveMessage w h data s =
    (if is_string type "onFile" then case_onFile w h data
     else if is_string type "onViewFile" then case_onViewFile h data
     else if is_string type "onSaplingVisible" then case_onSaplingVisible w
     else if is_string type "onSettingsAcquire" then case_onSettingsAcquire w h
     else if is_string type "onNodeToggle" then case_onNodeToggle data
     else if is_string type "onBoldCheck" then case_onBoldCheck h
     else ret tt) s.
Proof.
  intros Hty. unfold onDidReceiveMessage, bind. rewrite Hty. cbn.
  destruct ((if is_string type "onFile" then case_onFile w h data
     else if is_string type "onViewFile" then case_onViewFile h data
     else if is_string type "onSaplingVisible" then case_onSaplingVisible w
     else if is_string type "onSettingsAcquire" then case_onSettingsAcquire w h
     else if is_string type "onNodeToggle" then case_onNodeToggle data
     else if is_string type "onBoldCheck" then case_onBoldCheck h
     else ret tt) s) as [f t o].
  reflexivity.
Qed.

Lemma dispatch_untyped w h data s e :
  get_prop data "type" = Thrown e ->
  onDidReceiveMessage w h data s =
    {| final := s; trace := []; outcome := Thrown e |}.
Proof.
  intros Hty. unfold onDidReceiveMessage, bind. rewrite Hty. reflexivity.
Qed.

(** A toggle that finds no parser throws at [this.parser.toggleNode],
    whatever the message carries. *)
Lemma case_onNodeToggle_unbound data s :
  parser (this s) = None ->
  case_onNodeToggle data s =
    {| final := s; trace := []; outcome := Thrown TypeError |}.
Proof.
  intros Hp. unfold case_onNodeToggle, this_parser. unfold_monad.
  rewrite Hp. reflexivity.
Qed.

Lemma onNodeToggle_unbound w h data s :
  get_prop data "type" = Returned (VStr "onNodeToggle") ->
  parser (this s) = None ->
  onDidReceiveMessage w h data s =
    {| final := s; trace := []; outcome := Thrown TypeError |}.
Proof.
  intros Hty Hp. rewrite (dispatch w h data s Hty).
  cbn [is_string String.eqb Ascii.eqb Bool.eqb].
  now apply case_onNodeToggle_unbound.
Qed.

(** C1, at the failing input.  In a controller that has no parser yet, the
    message [{type: "onNodeToggle", value: {id: "n1", expanded: true}}]
    makes the handler throw a [TypeError]: it does not complete.  The
    state is left as it was and nothing is posted. *)
Theorem onNodeToggle_before_any_parser_throws w h :
  onDidReceiveMessage w h
    (message "onNodeToggle" (VObj [("id", VStr "n1"); ("expanded", VBool true)]))
    new_SidebarProvider
  = {| final := new_SidebarProvider; trace := []; outcome := Thrown TypeError |}.
Proof.
  apply onNodeToggle_unbound; reflexivity.
Qed.

(** ** Document saved *)

(** C3.  On a document-save event: without a parser the handler does
    nothing at all.  With a parser, [updateTree] is run on it for the saved
    file and the parser keeps the result; nothing is posted while the view
    is hidden, and exactly one "parsed-data" message carrying the tree
    [updateTree] returned is posted to the view when it is visible. *)
Theorem save_is_gated_on_visibility w h (d : TextDocument) s :
  (parser (this s) = None -> onDidSaveTextDocument w h d s = noop s) /\
  (forall p, parser (this s) = Some p ->
     let u := updateTree (fs h) (fileName d) (obj p) in
     let r := onDidSaveTextDocument w h d s in
     outcome r = Returned tt /\
     final r = with_parser s {| oid := oid p; obj := fst u |} /\
     (visible h w = false -> trace r = []) /\
     (visible h w = true -> trace r = [PostMessage w (parsed_data (snd u))])).
Proof.
  split.
  - intros Hp. unfold onDidSaveTextDocument. unfold_monad. rewrite Hp.
    reflexivity.
  - intros p Hp u r. subst u r.
    unfold onDidSaveTextDocument, call_parser, this_parser. unfold_monad.
    rewrite Hp. cbn. rewrite Hp. cbn.
    destruct (visible h w); cbn; repeat split; intros; congruence.
Qed.

(** ** Panel became visible *)

(** C4.  On an "onSaplingVisible" message: with a parser, exactly two
    messages are posted, "parsed-data" with what [getTree] returns and then
    "saved-file" with [tree.fileName], and the parser is not touched;
    without a parser nothing happens. *)
Theorem onSaplingVisible_catches_up w h data s :
  get_prop data "type" = Returned (VStr "onSaplingVisible") ->
  (parser (this s) = None -> onDidReceiveMessage w h data s = noop s) /\
  (forall p, parser (this s) = Some p ->
     onDidReceiveMessage w h data s =
       {| final := s;
          trace := [PostMessage w (parsed_data (getTree (obj p)));
                    PostMessage w (saved_file (tree_fileName (tree (obj p))))];
          outcome := Returned tt |}).
Proof.
  intros Hty. rewrite (dispatch w h data s Hty).
  cbn [is_string String.eqb Ascii.eqb Bool.eqb].
  unfold case_onSaplingVisible, read_parser, this_parser. unfold_monad.
  split.
  - intros Hp. rewrite Hp. reflexivity.
  - intros p Hp. rewrite Hp. cbn. rewrite Hp. cbn. rewrite Hp. reflexivity.
Qed.

(** ** Opening a file for the tree *)

Lemma case_onFile_value w h data value s :
  get_prop data "value" = Returned value -> truthy value = true ->
  case_onFile w h data s =
    {| final := with_new_parser s (fst (parse (fs h) (construct value)));
       trace := [PostMessage w (parsed_data (snd (parse (fs h) (construct value))))];
       outcome := Returned tt |}.
Proof.
  intros Hv Ht. unfold case_onFile, call_parser, this_parser. unfold_monad.
  rewrite Hv. cbn. rewrite Ht. reflexivity.
Qed.

Lemma truthy_VStr (a : string) : a <> "" -> truthy (VStr a) = true.
Proof.
  intros Ha. cbn. destruct (String.eqb_spec a ""); [contradiction | reflexivity].
Qed.

Lemma onFile_opens w h (a : string) s :
  a <> "" ->
  onDidReceiveMessage w h (message "onFile" (VStr a)) s =
    {| final := with_new_parser s (fst (parse (fs h) (construct (VStr a))));
       trace := [PostMessage w (parsed_data (snd (parse (fs h) (construct (VStr a)))))];
       outcome := Returned tt |}.
Proof.
  intros Ha. rewrite (@dispatch (VStr "onFile")) by reflexivity.
  cbn [is_string String.eqb Ascii.eqb Bool.eqb].
  apply case_onFile_value; [reflexivity | now apply truthy_VStr].
Qed.

(** C5.  Two "onFile" messages in a row, for [a] and then for [b], both
    non-empty and different.  After the second one the parser is a new
    object (its identity is the one allocated after [a]'s parser), its state
    is the one a full parse leaves in a parser constructed for [b], and the
    tree posted is the one that parse returned.  Nothing of [a] or of what
    came before is left: the parser state is the same as when [b] is opened
    in a controller just constructed. *)
Theorem onFile_replaces_never_merges w1 w2 h1 h2 (a b : string) s :
  a <> "" -> b <> "" -> a <> b ->
  let r1 := onDidReceiveMessage w1 h1 (message "onFile" (VStr a)) s in
  let r2 := onDidReceiveMessage w2 h2 (message "onFile" (VStr b)) (final r1) in
  let full := parse (fs h2) (construct (VStr b)) in
  outcome r2 = Returned tt /\
  parser (this (final r1)) =
    Some {| oid := allocated s; obj := fst (parse (fs h1) (construct (VStr a))) |} /\
  parser (this (final r2)) =
    Some {| oid := S (allocated s); obj := fst full |} /\
  trace r2 = [PostMessage w2 (parsed_data (snd full))] /\
  option_map obj (parser (this (final r2))) =
    option_map obj
      (parser (this (final (onDidReceiveMessage w2 h2
                              (message "onFile" (VStr b)) new_SidebarProvider)))).
Proof.
  intros Ha Hb _ r1 r2 full. subst r1 r2 full.
  rewrite !onFile_opens by assumption. cbn. repeat split.
Qed.

Lemma is_string_true (v : Value) (lit : string) :
  is_string v lit = true -> v = VStr lit.
Proof.
  destruct v; cbn; try discriminate.
  intros H. apply String.eqb_eq in H. now subst.
Qed.

(** ** Relations that every step of a handler respects *)

Section Respects.

Variable R : World -> World -> Prop.
Hypothesis R_refl : forall s, R s s.
Hypothesis R_trans : forall s1 s2 s3, R s1 s2 -> R s2 s3 -> R s1 s3.

Lemma respects_ret A (a : A) : respects R (ret a).
Proof. intros w. apply R_refl. Qed.

Lemma respects_throw A (e : Error) : respects R (@throw _ A e).
Proof. intros w. apply R_refl. Qed.

Lemma respects_emit (e : Effect) : respects R (emit e).
Proof. intros w. apply R_refl. Qed.

Lemma respects_get_this : respects R get_this.
Proof. intros w. apply R_refl. Qed.

Lemma respects_deref A (o : option A) : respects R (deref o).
Proof. destruct o; [apply respects_ret | apply respects_throw]. Qed.

Lemma respects_await A (o : option A) : respects R (await o).
Proof. destruct o; [apply respects_ret | apply respects_throw]. Qed.

Lemma respects_of_outcome A (o : Outcome A) : respects R (of_outcome o).
Proof. destruct o; [apply respects_ret | apply respects_throw]. Qed.

Lemma respects_postMessage w (m : Message) : respects R (postMessage w m).
Proof. apply respects_emit. Qed.

Lemma respects_bind A B (m : M A) (k : A -> M B) :
  respects R m -> (forall a, respects R (k a)) -> respects R (bind m k).
Proof.
  intros Hm Hk w. unfold bind.
  specialize (Hm w). destruct (m w) as [w1 t1 [a | e]]; cbn in Hm.
  - specialize (Hk a w1). destruct (k a w1) as [w2 t2 o]; cbn in *.
    eapply R_trans; eassumption.
  - exact Hm.
Qed.

Lemma respects_this_parser : respects R this_parser.
Proof.
  apply respects_bind; [apply respects_get_this | intros; apply respects_deref].
Qed.

Lemma respects_read_parser A (field : ParserState -> A) :
  respects R (read_parser field).
Proof.
  apply respects_bind; [apply respects_this_parser | intros; apply respects_ret].
Qed.

Lemma respects_view_postMessage (m : Message) : respects R (view_postMessage m).
Proof.
  apply respects_bind; [apply respects_get_this | intros t].
  apply respects_bind; [apply respects_deref | intros; apply respects_postMessage].
Qed.

(** The cases of the switch and the listeners that assign no field. *)

Lemma respects_case_onViewFile h data : respects R (case_onViewFile h data).
Proof.
  apply respects_bind; [apply respects_of_outcome | intros value].
  destruct (negb (truthy value)); [apply respects_ret |].
  apply respects_bind; [apply respects_emit | intros _].
  apply respects_bind; [apply respects_await | intros doc].
  apply respects_bind; [apply respects_emit | intros _].
  destruct (showTextDocument h doc); [apply respects_ret | apply respects_throw].
Qed.

Lemma respects_case_onSaplingVisible w : respects R (case_onSaplingVisible w).
Proof.
  apply respects_bind; [apply respects_get_this | intros t].
  destruct (parser t); [| apply respects_ret].
  apply respects_bind; [apply respects_read_parser | intros parsed].
  apply respects_bind; [apply respects_postMessage | intros _].
  apply respects_bind; [apply respects_read_parser | intros name].
  apply respects_postMessage.
Qed.

Lemma respects_case_onSettingsAcquire w h :
  respects R (case_onSettingsAcquire w h).
Proof. apply respects_postMessage. Qed.

Lemma respects_case_onBoldCheck h : respects R (case_onBoldCheck h).
Proof.
  apply respects_bind; [apply respects_deref | intros e].
  apply respects_view_postMessage.
Qed.

Lemma respects_onDidChangeConfiguration w h :
  respects R (onDidChangeConfiguration w h).
Proof. apply respects_postMessage. Qed.

Lemma respects_onDidChangeActiveTextEditor w e :
  respects R (onDidChangeActiveTextEditor w e).
Proof. destruct e; [apply respects_postMessage | apply respects_ret]. Qed.

(** The members that assign a field respect [R] as soon as the assignments
    they make do. *)

Lemma respects_resolveWebviewView w :
  (forall v, respects R (set_view v)) -> respects R (resolveWebviewView w).
Proof.
  intros Hview. unfold resolveWebviewView.
  apply respects_bind; [apply Hview | intros _].
  repeat (apply respects_bind; [apply respects_emit | intros _]).
  apply respects_emit.
Qed.

Lemma respects_onDidSaveTextDocument w h (d : TextDocument) :
  (forall A (method : ParserState -> ParserState * A),
     respects R (call_parser method)) ->
  respects R (onDidSaveTextDocument w h d).
Proof.
  intros Hcall.
  apply respects_bind; [apply respects_get_this | intros t].
  destruct (parser t); [| apply respects_ret].
  apply respects_bind; [apply Hcall | intros parsed].
  destruct (visible h w); [apply respects_postMessage | apply respects_ret].
Qed.

Lemma respects_case_onFile w h data :
  (forall v, respects R (new_parser v)) ->
  (forall A (method : ParserState -> ParserState * A),
     respects R (call_parser method)) ->
  respects R (case_onFile w h data).
Proof.
  intros Hnew Hcall.
  apply respects_bind; [apply respects_of_outcome | intros value].
  destruct (negb (truthy value)); [apply respects_ret |].
  apply respects_bind; [apply Hnew | intros _].
  apply respects_bind; [apply Hcall | intros parsed].
  apply respects_postMessage.
Qed.

Lemma respects_statusButtonClicked h :
  (forall v, respects R (new_parser v)) ->
  (forall A (method : ParserState -> ParserState * A),
     respects R (call_parser method)) ->
  respects R (statusButtonClicked h).
Proof.
  intros Hnew Hcall.
  apply respects_bind; [apply respects_deref | intros e]. cbv zeta.
  destruct (truthy (VStr (fileName (document e)))); [| apply respects_ret].
  apply respects_bind; [apply Hnew | intros _].
  apply respects_bind; [apply Hcall | intros _].
  apply respects_bind; [apply respects_read_parser | intros parsed].
  apply respects_bind; [apply respects_view_postMessage | intros _].
  apply respects_bind; [apply respects_read_parser | intros name].
  apply respects_view_postMessage.
Qed.

Lemma respects_onDidReceiveMessage w h data :
  (get_prop data "type" = Returned (VStr "onFile") ->
   respects R (case_onFile w h data)) ->
  respects R (case_onNodeToggle data) ->
  respects R (onDidReceiveMessage w h data).
Proof.
  intros Hfile Htoggle s.
  destruct (get_prop data "type") as [type | e] eqn:Hty.
  - rewrite (dispatch w h data s Hty).
    destruct (is_string type "onFile") eqn:E.
    { apply is_string_true in E. subst type. now apply Hfile. }
    destruct (is_string type "onViewFile"); [apply respects_case_onViewFile |].
    destruct (is_string type "onSaplingVisible");
      [apply respects_case_onSaplingVisible |].
    destruct (is_string type "onSettingsAcquire");
      [apply respects_case_onSettingsAcquire |].
    destruct (is_string type "onNodeToggle"); [apply Htoggle |].
    destruct (is_string type "onBoldCheck"); [apply respects_case_onBoldCheck |].
    apply R_refl.
  - rewrite (dispatch_untyped w h data s Hty). apply R_refl.
Qed.

Lemma respects_run h (op : Operation) :
  (forall v, respects R (set_view v)) ->
  (forall A (method : ParserState -> ParserState * A),
     respects R (call_parser method)) ->
  (forall data, respects R (case_onNodeToggle data)) ->
  (replaces_parser op -> forall v, respects R (new_parser v)) ->
  respects R (run h op).
Proof.
  intros Hview Hcall Htoggle Hnew. destruct op; cbn [run replaces_parser] in *.
  - now apply respects_resolveWebviewView.
  - apply Hview.
  - apply respects_statusButtonClicked; auto.
  - apply respects_onDidChangeConfiguration.
  - apply respects_onDidChangeActiveTextEditor.
  - now apply respects_onDidSaveTextDocument.
  - apply respects_onDidReceiveMessage; [| apply Htoggle].
    intros Hty. apply respects_case_onFile; auto.
  - apply respects_ret.
  - apply respects_ret.
Qed.

End Respects.

(** With equality for the relation: these leave the world untouched. *)
Lemma eq_trans_world s1 s2 s3 : s1 = s2 -> s2 = s3 -> s1 = s3.
Proof. congruence. Qed.


(** ** Empty input *)

(** C6.  An "onFile" message and an "onViewFile" message whose value is
    empty or absent ([undefined], [null], the empty string: anything
    falsy) are ignored: whatever the state was, it is unchanged, nothing is
    posted and the host is not called. *)
Theorem empty_value_is_ignored w h data value s :
  get_prop data "value" = Returned value ->
  truthy value = false ->
  (get_prop data "type" = Returned (VStr "onFile") ->
   onDidReceiveMessage w h data s = noop s) /\
  (get_prop data "type" = Returned (VStr "onViewFile") ->
   onDidReceiveMessage w h data s = noop s).
Proof.
  intros Hv Hf. split; intros Hty; rewrite (dispatch w h data s Hty);
    cbn [is_string String.eqb Ascii.eqb Bool.eqb].
  - unfold case_onFile. unfold_monad. rewrite Hv. cbn. rewrite Hf. reflexivity.
  - unfold case_onViewFile. unfold_monad. rewrite Hv. cbn. rewrite Hf. reflexivity.
Qed.

(** ** Active document changed *)

(** C7.  When the active editor changes: with no editor (all tabs closed)
    the handler does nothing; with an editor it posts exactly one
    "current-tab" message carrying the file name of its document, and does
    so whether the view is visible or not. *)
Theorem active_editor_change_posts_current_tab w h s :
  run h (ActiveTextEditorChanged w None) s = noop s /\
  (forall e : TextEditor,
     run h (ActiveTextEditorChanged w (Some e)) s =
       {| final := s;
          trace := [PostMessage w (current_tab (fileName (document e)))];
          outcome := Returned tt |}).
Proof.
  split; reflexivity.
Qed.

(** ** The session's frame *)

(** C9.  The handlers of "onViewFile", "onSettingsAcquire" and
    "onBoldCheck" messages, of configuration changes and of active-editor
    changes leave [this.parser] as it was, also when they throw. *)
Theorem parser_untouched_by_view_only_handlers w h s :
  (forall data,
     get_prop data "type" = Returned (VStr "onViewFile") \/
     get_prop data "type" = Returned (VStr "onSettingsAcquire") \/
     get_prop data "type" = Returned (VStr "onBoldCheck") ->
     parser (this (final (onDidReceiveMessage w h data s))) = parser (this s)) /\
  parser (this (final (onDidChangeConfiguration w h s))) = parser (this s) /\
  (forall e, parser (this (final (onDidChangeActiveTextEditor w e s)))
             = parser (this s)).
Proof.
  split; [| split].
  - intros data [Hty | [Hty | Hty]]; rewrite (dispatch w h data s Hty);
      cbn [is_string String.eqb Ascii.eqb Bool.eqb].
    + symmetry. do 2 f_equal. apply (respects_case_onViewFile (@eq World) (@eq_refl World) eq_trans_world h data s).
    + reflexivity.
    + symmetry. do 2 f_equal. apply (respects_case_onBoldCheck (@eq World) (@eq_refl World) eq_trans_world h s).
  - reflexivity.
  - intros [e |]; reflexivity.
Qed.


(** ** The parser, once bound *)

Lemma stays_bound_refl s : stays_bound s s.
Proof. intros H. exact H. Qed.

Lemma stays_bound_trans s1 s2 s3 :
  stays_bound s1 s2 -> stays_bound s2 s3 -> stays_bound s1 s3.
Proof. unfold stays_bound. auto. Qed.

Lemma same_parser_object_refl s : same_parser_object s s.
Proof. intros p Hp. exists p. auto. Qed.

Lemma same_parser_object_trans s1 s2 s3 :
  same_parser_object s1 s2 -> same_parser_object s2 s3 ->
  same_parser_object s1 s3.
Proof.
  intros H12 H23 p Hp.
  destruct (H12 p Hp) as (p2 & Hp2 & E2).
  destruct (H23 p2 Hp2) as (p3 & Hp3 & E3).
  exists p3. split; [assumption | congruence].
Qed.

Lemma set_view_stays_bound v : respects stays_bound (set_view v).
Proof. intros s H. exact H. Qed.

Lemma set_parser_stays_bound p : respects stays_bound (set_parser p).
Proof. intros s _. discriminate. Qed.

Lemma new_parser_stays_bound v : respects stays_bound (new_parser v).
Proof. intros s _. discriminate. Qed.

Lemma call_parser_stays_bound A (method : ParserState -> ParserState * A) :
  respects stays_bound (call_parser method).
Proof.
  apply respects_bind;
    [apply stays_bound_trans
    | apply respects_this_parser; [apply stays_bound_refl | apply stays_bound_trans]
    | intros p ].
  apply respects_bind;
    [apply stays_bound_trans | apply set_parser_stays_bound | intros _ ].
  apply respects_ret, stays_bound_refl.
Qed.

Lemma case_onNodeToggle_stays_bound data :
  respects stays_bound (case_onNodeToggle data).
Proof.
  pose proof stays_bound_refl as Hr. pose proof stays_bound_trans as Ht.
  apply respects_bind; [exact Ht | now apply respects_this_parser | intros p].
  repeat (apply respects_bind;
            [exact Ht | now apply respects_of_outcome | intros ?]).
  apply set_parser_stays_bound.
Qed.

Lemma set_view_same_parser_object v : respects same_parser_object (set_view v).
Proof. intros s p Hp. exists p. auto. Qed.

Lemma call_parser_same_parser_object A
  (method : ParserState -> ParserState * A) :
  respects same_parser_object (call_parser method).
Proof.
  intros s p Hp. unfold call_parser, this_parser. unfold_monad.
  rewrite Hp. cbn. eauto.
Qed.

Lemma case_onNodeToggle_same_parser_object data :
  respects same_parser_object (case_onNodeToggle data).
Proof.
  intros s p Hp. unfold case_onNodeToggle, this_parser. unfold_monad.
  rewrite Hp. cbn.
  destruct (get_prop data "value") as [value | e]; cbn; [| eauto].
  destruct (get_prop value "id") as [id | e]; cbn; [| eauto].
  destruct (get_prop value "expanded") as [expanded | e]; cbn; eauto.
Qed.

Lemma run_stays_bound h op : respects stays_bound (run h op).
Proof.
  apply respects_run.
  - apply stays_bound_refl.
  - apply stays_bound_trans.
  - apply set_view_stays_bound.
  - apply call_parser_stays_bound.
  - apply case_onNodeToggle_stays_bound.
  - intros _. apply new_parser_stays_bound.
Qed.

Lemma run_all_stays_bound (events : list (Host * Operation)) s :
  stays_bound s (run_all events s).
Proof.
  revert s. induction events as [| [h op] rest IH]; intros s; cbn [run_all].
  - apply stays_bound_refl.
  - eapply stays_bound_trans; [apply run_stays_bound | apply IH].
Qed.

(** C8.  A controller that has a parser keeps having one: after any
    operation (resolving or reviving the view, the status button, any host
    event, any message), returning or throwing, and hence after any sequence
    of them, [this.parser] is still defined.  It is even the same parser
    object, unless the operation is the status button or an "onFile"
    message, the two that assign the field. *)
Theorem parser_once_bound_stays_bound h op s :
  (parser (this s) <> None -> parser (this (final (run h op s))) <> None) /\
  (forall events : list (Host * Operation),
     parser (this s) <> None -> parser (this (run_all events s)) <> None) /\
  (forall p, parser (this s) = Some p -> ~ replaces_parser op ->
     exists p', parser (this (final (run h op s))) = Some p' /\ oid p' = oid p).
Proof.
  split; [| split].
  - apply run_stays_bound.
  - intros events. apply run_all_stays_bound.
  - intros p Hp Hop.
    assert (Hrun : respects same_parser_object (run h op)).
    { apply respects_run.
      - apply same_parser_object_refl.
      - apply same_parser_object_trans.
      - apply set_view_same_parser_object.
      - apply call_parser_same_parser_object.
      - apply case_onNodeToggle_same_parser_object.
      - intros Hrep. contradiction. }
    exact (Hrun s p Hp).
Qed.

(** ** The status button *)

Lemma statusButtonClicked_opens h s (e : TextEditor) :
  activeTextEditor h = Some e ->
  fileName (document e) <> "" ->
  let st := fst (parse (fs h) (construct (VStr (fileName (document e))))) in
  statusButtonClicked h s =
    match _view (this s) with
    | Some w =>
        {| final := with_new_parser s st;
           trace := [PostMessage w (parsed_data (getTree st));
                     PostMessage w (saved_file (tree_fileName (tree st)))];
           outcome := Returned tt |}
    | None =>
        {| final := with_new_parser s st; trace := [];
           outcome := Thrown TypeError |}
    end.
Proof.
  intros He Hname st. subst st.
  unfold statusButtonClicked. rewrite He.
  unfold bind at 1. cbn [deref ret]. cbv zeta.
  rewrite (truthy_VStr Hname).
  destruct s as [[v d p] n].
  destruct v; reflexivity.
Qed.

Lemma statusButtonClicked_empty h s (e : TextEditor) :
  activeTextEditor h = Some e ->
  fileName (document e) = "" ->
  statusButtonClicked h s = noop s.
Proof.
  intros He Hname. unfold statusButtonClicked. rewrite He.
  unfold bind at 1. cbn [deref ret]. cbv zeta. rewrite Hname. reflexivity.
Qed.

(** C10, amended.  When the status button is clicked while the active
    document has a non-empty file name and the view exists ([this._view] is
    defined), the parser is replaced by a new one constructed for that file,
    a full parse is run on it, and exactly two messages are posted to the
    view, in order: "parsed-data" with what [getTree] returns and
    "saved-file" with [tree.fileName].  When the file name is empty nothing
    changes and nothing is posted. *)
Theorem statusButtonClicked_with_view h s (e : TextEditor) :
  activeTextEditor h = Some e ->
  (fileName (document e) <> "" ->
   forall w, _view (this s) = Some w ->
     let st := fst (parse (fs h) (construct (VStr (fileName (document e))))) in
     statusButtonClicked h s =
       {| final := with_new_parser s st;
          trace := [PostMessage w (parsed_data (getTree st));
                    PostMessage w (saved_file (tree_fileName (tree st)))];
          outcome := Returned tt |}) /\
  (fileName (document e) = "" -> statusButtonClicked h s = noop s).
Proof.
  intros He. split.
  - intros Hname w Hw st. subst st.
    rewrite (@statusButtonClicked_opens h s e He Hname). rewrite Hw. reflexivity.
  - eapply statusButtonClicked_empty; eassumption.
Qed.

(** ** Sending without a view *)

(** C2, amended.  A send through [this._view] while the view does not
    exist is not dropped: it throws a [TypeError], posting nothing and
    leaving the controller as it is at that point.  So the status button
    clicked before [resolveWebviewView] ever ran, on a document with a
    non-empty file name, replaces the parser by a new one that has parsed
    that file and then throws at its first send; on an empty file name it
    attempts no send and completes with no effect at all. *)
Theorem send_without_view_throws h s :
  _view (this s) = None ->
  (forall m : Message,
     view_postMessage m s =
       {| final := s; trace := []; outcome := Thrown TypeError |}) /\
  (forall e : TextEditor,
     activeTextEditor h = Some e -> fileName (document e) <> "" ->
     statusButtonClicked h s =
       {| final := with_new_parser s
                     (fst (parse (fs h) (construct (VStr (fileName (document e))))));
          trace := [];
          outcome := Thrown TypeError |}) /\
  (forall e : TextEditor,
     activeTextEditor h = Some e -> fileName (document e) = "" ->
     statusButtonClicked h s = noop s).
Proof.
  intros Hview. split; [| split].
  - intros m. unfold view_postMessage. unfold_monad. rewrite Hview. reflexivity.
  - intros e He Hname.
    rewrite (@statusButtonClicked_opens h s e He Hname). rewrite Hview. reflexivity.
  - intros e He Hname. eapply statusButtonClicked_empty; eassumption.
Qed.

(** * Further properties *)

(** ** Messages the switch has no case for *)

(** X1.  A message whose [type] is none of the six labels of the switch
    (an unknown or missing type, or a message that is not an object) is
    ignored: nothing changes and nothing is posted.  A message that is
    [undefined] or [null] makes the handler throw at [data.type], before
    anything is done. *)
Theorem message_outside_the_switch w h s :
  (forall data type,
     get_prop data "type" = Returned type -> known_type type = false ->
     onDidReceiveMessage w h data s = noop s) /\
  (forall data,
     data = VUndefined \/ data = VNull ->
     onDidReceiveMessage w h data s =
       {| final := s; trace := []; outcome := Thrown TypeError |}).
Proof.
  split.
  - intros data type Hty Hk. rewrite (dispatch w h data s Hty).
    unfold known_type in Hk. cbn [existsb case_labels] in Hk.
    repeat (apply orb_false_elim in Hk; destruct Hk as [?E Hk]).
    rewrite E, E0, E1, E2, E3, E4. reflexivity.
  - intros data [-> | ->]; now apply dispatch_untyped.
Qed.

(** ** Viewing a file *)

(** X2.  An "onViewFile" message with a value asks the host to open that
    document and then to show the document it got.  If the opening is
    rejected the handler throws without asking to show anything; if the
    showing is rejected it throws after both calls.  In every case the
    controller is left as it was and nothing is posted to a view. *)
Theorem onViewFile_opens_then_shows w h data value s :
  get_prop data "type" = Returned (VStr "onViewFile") ->
  get_prop data "value" = Returned value ->
  truthy value = true ->
  let r := onDidReceiveMessage w h data s in
  final r = s /\ posted (trace r) = [] /\
  (openTextDocument h value = None ->
   trace r = [OpenTextDocument value] /\ outcome r = Thrown HostRejected) /\
  (forall doc, openTextDocument h value = Some doc ->
   trace r = [OpenTextDocument value; ShowTextDocument doc] /\
   outcome r = if showTextDocument h doc then Returned tt
               else Thrown HostRejected).
Proof.
  intros Hty Hv Ht r. subst r. rewrite (dispatch w h data s Hty).
  cbn [is_string String.eqb Ascii.eqb Bool.eqb].
  unfold case_onViewFile. unfold_monad. rewrite Hv. cbn. rewrite Ht. cbn.
  destruct (openTextDocument h value) as [doc |]; cbn.
  - destruct (showTextDocument h doc) eqn:Hshow; cbn;
      (split; [reflexivity | split; [reflexivity | split; [discriminate |]]];
       intros doc' Hdoc; injection Hdoc as <-; rewrite Hshow;
       split; reflexivity).
  - split; [reflexivity | split; [reflexivity | split; [| discriminate]]].
    intros _. split; reflexivity.
Qed.

(** ** Toggling a node *)

(** X3.  An "onNodeToggle" message received with a parser: the [id] and
    [expanded] read from the value are handed to the parser's
    [toggleNode], the parser object stays the same one, and nothing is
    posted.  When the value is [undefined] or [null], reading [value.id]
    throws and the parser is not touched. *)
Theorem onNodeToggle_forwards_to_the_parser w h data value s p :
  get_prop data "type" = Returned (VStr "onNodeToggle") ->
  get_prop data "value" = Returned value ->
  parser (this s) = Some p ->
  (forall id expanded,
     get_prop value "id" = Returned id ->
     get_prop value "expanded" = Returned expanded ->
     onDidReceiveMessage w h data s =
       {| final := with_parser s {| oid := oid p;
                                    obj := toggleNode id expanded (obj p) |};
          trace := []; outcome := Returned tt |}) /\
  (value = VUndefined \/ value = VNull ->
     onDidReceiveMessage w h data s =
       {| final := s; trace := []; outcome := Thrown TypeError |}).
Proof.
  intros Hty Hv Hp. rewrite (dispatch w h data s Hty).
  cbn [is_string String.eqb Ascii.eqb Bool.eqb].
  unfold case_onNodeToggle, this_parser. unfold_monad.
  rewrite Hp. cbn. rewrite Hv. cbn. split.
  - intros id expanded Hid Hex. rewrite Hid. cbn. rewrite Hex. reflexivity.
  - intros [-> | ->]; reflexivity.
Qed.

(** ** The active file *)

(** X4.  An "onBoldCheck" message posts one "current-tab" message with the
    file name of the active document, empty or not, and posts it to
    [this._view]: the view assigned last by [resolveWebviewView] or
    [revive], whichever view's listener received the message. *)
Theorem onBoldCheck_posts_to_this_view w h data s (e : TextEditor) v :
  get_prop data "type" = Returned (VStr "onBoldCheck") ->
  activeTextEditor h = Some e ->
  _view (this s) = Some v ->
  onDidReceiveMessage w h data s =
    {| final := s;
       trace := [PostMessage v (current_tab (fileName (document e)))];
       outcome := Returned tt |}.
Proof.
  intros Hty He Hview. rewrite (dispatch w h data s Hty).
  cbn [is_string String.eqb Ascii.eqb Bool.eqb].
  unfold case_onBoldCheck, view_postMessage. unfold_monad.
  rewrite He. cbn. rewrite Hview. reflexivity.
Qed.

(** X5.  Without an active editor, the status button and an "onBoldCheck"
    message both throw a [TypeError] at [activeTextEditor.document]; the
    controller is left as it was and nothing is posted. *)
Theorem no_active_editor_throws w h data s :
  activeTextEditor h = None ->
  statusButtonClicked h s =
    {| final := s; trace := []; outcome := Thrown TypeError |} /\
  (get_prop data "type" = Returned (VStr "onBoldCheck") ->
   onDidReceiveMessage w h data s =
     {| final := s; trace := []; outcome := Thrown TypeError |}).
Proof.
  intros He. split.
  - unfold statusButtonClicked. unfold_monad. rewrite He. reflexivity.
  - intros Hty. rewrite (dispatch w h data s Hty).
    cbn [is_string String.eqb Ascii.eqb Bool.eqb].
    unfold case_onBoldCheck. unfold_monad. rewrite He. reflexivity.
Qed.

(** ** Settings *)

(** X6.  The settings are sent the same way on both paths: an
    "onSettingsAcquire" message does exactly what the configuration-change
    listener of the same view does, namely post one "settings-data"
    message with the [view] setting read from the host at that moment,
    leaving the controller as it was. *)
Theorem settings_paths_agree w h data s :
  get_prop data "type" = Returned (VStr "onSettingsAcquire") ->
  onDidReceiveMessage w h data s = run h (ConfigurationChanged w) s /\
  run h (ConfigurationChanged w) s =
    {| final := s;
       trace := [PostMessage w
                   (settings_data (view (getConfiguration h "sapling")))];
       outcome := Returned tt |}.
Proof.
  intros Hty. rewrite (dispatch w h data s Hty). split; reflexivity.
Qed.

(** ** Opening a file *)

(** X11.  An "onFile" message with any truthy value, a string or not,
    received in any state and whether the view is visible or not, makes a
    new parser for that value, runs a full parse and posts exactly one
    "parsed-data" message, to the listener's view, carrying the tree that
    [parse] returned. *)
Theorem onFile_opens_whatever_is_truthy w h data value s :
  get_prop data "type" = Returned (VStr "onFile") ->
  get_prop data "value" = Returned value ->
  truthy value = true ->
  onDidReceiveMessage w h data s =
    {| final := with_new_parser s (fst (parse (fs h) (construct value)));
       trace := [PostMessage w
                   (parsed_data (snd (parse (fs h) (construct value))))];
       outcome := Returned tt |}.
Proof.
  intros Hty Hv Ht. rewrite (dispatch w h data s Hty).
  cbn [is_string String.eqb Ascii.eqb Bool.eqb].
  now apply case_onFile_value.
Qed.


(** X10.  Once [resolveWebviewView] or [revive] has given the controller a
    view, the status button on a document with a non-empty name completes
    and its two messages go to that view. *)
Theorem statusButtonClicked_after_view_assigned h s (e : TextEditor) v :
  activeTextEditor h = Some e ->
  fileName (document e) <> "" ->
  let st := fst (parse (fs h) (construct (VStr (fileName (document e))))) in
  let posts := [PostMessage v (parsed_data (getTree st));
                PostMessage v (saved_file (tree_fileName (tree st)))] in
  statusButtonClicked h (final (resolveWebviewView v s)) =
    {| final := with_new_parser (with_view s v) st;
       trace := posts; outcome := Returned tt |} /\
  statusButtonClicked h (final (revive v s)) =
    {| final := with_new_parser (with_view s v) st;
       trace := posts; outcome := Returned tt |}.
Proof.
  intros He Hname st posts. subst st posts.
  split; rewrite (@statusButtonClicked_opens h _ e He Hname); reflexivity.
Qed.

(** ** Visibility *)

(** X7.  [webviewView.visible] is read by the save listener only, and only
    to decide whether to post: the state an operation leaves does not
    depend on which views are visible, and for every operation other than
    a save neither do the effects and the outcome. *)
Theorem only_the_save_listener_reads_visibility h shown op s :
  final (run (with_visible h shown) op s) = final (run h op s) /\
  (is_save op = false -> run (with_visible h shown) op s = run h op s).
Proof.
  destruct op; try (split; [reflexivity | intros _; reflexivity]).
  split; [| discriminate].
  cbn [run]. unfold onDidSaveTextDocument, call_parser, this_parser.
  unfold_monad. destruct s as [[v d p] n]. destruct p as [p |]; cbn.
  - destruct (shown webviewView), (visible h webviewView); reflexivity.
  - reflexivity.
Qed.

(** ** What is posted, and where *)

Section Emits.

Variable Q : option WebviewView -> Effect -> Prop.
Hypothesis Q_silent : forall v e, is_post e = false -> Q v e.

Lemma emits_ret A (a : A) : emits Q (ret a).
Proof. intros s. split; [reflexivity | constructor]. Qed.

Lemma emits_throw A (e : Error) : emits Q (@throw _ A e).
Proof. intros s. split; [reflexivity | constructor]. Qed.

Lemma emits_get_this : emits Q get_this.
Proof. intros s. split; [reflexivity | constructor]. Qed.

Lemma emits_deref A (o : option A) : emits Q (deref o).
Proof. destruct o; [apply emits_ret | apply emits_throw]. Qed.

Lemma emits_await A (o : option A) : emits Q (await o).
Proof. destruct o; [apply emits_ret | apply emits_throw]. Qed.

Lemma emits_of_outcome A (o : Outcome A) : emits Q (of_outcome o).
Proof. destruct o; [apply emits_ret | apply emits_throw]. Qed.

Lemma emits_set_parser p : emits Q (set_parser p).
Proof. intros s. split; [reflexivity | constructor]. Qed.

Lemma emits_new_parser v : emits Q (new_parser v).
Proof. intros s. split; [reflexivity | constructor]. Qed.

Lemma emits_emit (e : Effect) : is_post e = false -> emits Q (emit e).
Proof.
  intros He s. split; [reflexivity |]. constructor; [now apply Q_silent | constructor].
Qed.

Lemma emits_bind A B (m : M A) (k : A -> M B) :
  emits Q m -> (forall a, emits Q (k a)) -> emits Q (bind m k).
Proof.
  intros Hm Hk s. unfold bind.
  destruct (Hm s) as [Hv Ht]. destruct (m s) as [s1 t1 [a | e]]; cbn in *.
  - destruct (Hk a s1) as [Hv' Ht']. destruct (k a s1) as [s2 t2 o]; cbn in *.
    split; [congruence |].
    apply Forall_app. split; [assumption | now rewrite <- Hv].
  - split; assumption.
Qed.

Lemma emits_this_parser : emits Q this_parser.
Proof.
  apply emits_bind; [apply emits_get_this | intros; apply emits_deref].
Qed.

Lemma emits_read_parser A (field : ParserState -> A) :
  emits Q (read_parser field).
Proof.
  apply emits_bind; [apply emits_this_parser | intros; apply emits_ret].
Qed.

Lemma emits_call_parser A (method : ParserState -> ParserState * A) :
  emits Q (call_parser method).
Proof.
  apply emits_bind; [apply emits_this_parser | intros p].
  apply emits_bind; [apply emits_set_parser | intros; apply emits_ret].
Qed.

(** The listeners of view [w], and the members that post through
    [this._view], under the assumption that [Q] accepts a message of the
    protocol posted to either of the two. *)
Variable w : WebviewView.
Hypothesis Q_listener :
  forall v m, well_formed m = true -> Q v (PostMessage w m).
Hypothesis Q_this_view :
  forall v m, well_formed m = true -> Q (Some v) (PostMessage v m).

Lemma emits_postMessage (m : Message) :
  well_formed m = true -> emits Q (postMessage w m).
Proof.
  intros Hm s. split; [reflexivity |].
  constructor; [now apply Q_listener | constructor].
Qed.

Lemma emits_view_postMessage (m : Message) :
  well_formed m = true -> emits Q (view_postMessage m).
Proof.
  intros Hm s. unfold view_postMessage. unfold_monad.
  destruct s as [[v d p] n]. destruct v as [v |]; cbn.
  - split; [reflexivity |].
    constructor; [now apply Q_this_view | constructor].
  - split; [reflexivity | constructor].
Qed.

Lemma emits_onDidChangeConfiguration h : emits Q (onDidChangeConfiguration w h).
Proof. now apply emits_postMessage. Qed.

Lemma emits_onDidChangeActiveTextEditor e :
  emits Q (onDidChangeActiveTextEditor w e).
Proof. destruct e; [now apply emits_postMessage | apply emits_ret]. Qed.

Lemma emits_onDidSaveTextDocument h (d : TextDocument) :
  emits Q (onDidSaveTextDocument w h d).
Proof.
  apply emits_bind; [apply emits_get_this | intros t].
  destruct (parser t); [| apply emits_ret].
  apply emits_bind; [apply emits_call_parser | intros parsed].
  destruct (visible h w); [now apply emits_postMessage | apply emits_ret].
Qed.

Lemma emits_case_onFile h data : emits Q (case_onFile w h data).
Proof.
  apply emits_bind; [apply emits_of_outcome | intros value].
  destruct (negb (truthy value)); [apply emits_ret |].
  apply emits_bind; [apply emits_new_parser | intros _].
  apply emits_bind; [apply emits_call_parser | intros parsed].
  now apply emits_postMessage.
Qed.

Lemma emits_case_onViewFile h data : emits Q (case_onViewFile h data).
Proof.
  apply emits_bind; [apply emits_of_outcome | intros value].
  destruct (negb (truthy value)); [apply emits_ret |].
  apply emits_bind; [now apply emits_emit | intros _].
  apply emits_bind; [apply emits_await | intros doc].
  apply emits_bind; [now apply emits_emit | intros _].
  destruct (showTextDocument h doc); [apply emits_ret | apply emits_throw].
Qed.

Lemma emits_case_onSaplingVisible : emits Q (case_onSaplingVisible w).
Proof.
  apply emits_bind; [apply emits_get_this | intros t].
  destruct (parser t); [| apply emits_ret].
  apply emits_bind; [apply emits_read_parser | intros parsed].
  apply emits_bind; [now apply emits_postMessage | intros _].
  apply emits_bind; [apply emits_read_parser | intros name].
  now apply emits_postMessage.
Qed.

Lemma emits_case_onNodeToggle data : emits Q (case_onNodeToggle data).
Proof.
  apply emits_bind; [apply emits_this_parser | intros p].
  repeat (apply emits_bind; [apply emits_of_outcome | intros ?]).
  apply emits_set_parser.
Qed.

Lemma emits_case_onBoldCheck h : emits Q (case_onBoldCheck h).
Proof.
  apply emits_bind; [apply emits_deref | intros e].
  now apply emits_view_postMessage.
Qed.

Lemma emits_onDidReceiveMessage h data : emits Q (onDidReceiveMessage w h data).
Proof.
  apply emits_bind; [apply emits_of_outcome | intros type].
  destruct (is_string type "onFile"); [apply emits_case_onFile |].
  destruct (is_string type "onViewFile"); [apply emits_case_onViewFile |].
  destruct (is_string type "onSaplingVisible");
    [apply emits_case_onSaplingVisible |].
  destruct (is_string type "onSettingsAcquire");
    [now apply emits_postMessage |].
  destruct (is_string type "onNodeToggle"); [apply emits_case_onNodeToggle |].
  destruct (is_string type "onBoldCheck"); [apply emits_case_onBoldCheck |].
  apply emits_ret.
Qed.

Lemma emits_statusButtonClicked h : emits Q (statusButtonClicked h).
Proof.
  apply emits_bind; [apply emits_deref | intros e]. cbv zeta.
  destruct (truthy (VStr (fileName (document e)))); [| apply emits_ret].
  apply emits_bind; [apply emits_new_parser | intros _].
  apply emits_bind; [apply emits_call_parser | intros _].
  apply emits_bind; [apply emits_read_parser | intros parsed].
  apply emits_bind; [now apply emits_view_postMessage | intros _].
  apply emits_bind; [apply emits_read_parser | intros name].
  now apply emits_view_postMessage.
Qed.

Lemma emits_run h op :
  assigned_view op = None ->
  listener_view op = Some w \/ listener_view op = None ->
  emits Q (run h op).
Proof.
  intros Ha Hl.
  destruct op; cbn [run assigned_view listener_view] in *;
    try discriminate;
    try (destruct Hl as [Hl | Hl]; [injection Hl as -> | discriminate]).
  - apply emits_statusButtonClicked.
  - apply emits_onDidChangeConfiguration.
  - apply emits_onDidChangeActiveTextEditor.
  - apply emits_onDidSaveTextDocument.
  - apply emits_onDidReceiveMessage.
  - apply emits_ret.
  - apply emits_ret.
Qed.

End Emits.

Lemma posts_well_formed_posted v (t : list Effect) :
  Forall (posts_well_formed v) t -> forallb well_formed (posted t) = true.
Proof.
  induction 1 as [| e t He _ IH]; [reflexivity |].
  destruct e; cbn in *; try assumption.
  now rewrite He, IH.
Qed.


Lemma posts_well_formed_silent v e : is_post e = false -> posts_well_formed v e.
Proof. destruct e; cbn; [trivial | trivial | trivial | trivial | discriminate | trivial | trivial]. Qed.


(** X8.  Whatever an operation posts is one of the four messages of the
    protocol with the kind of value that goes with it: "parsed-data" with
    a tree, "saved-file" or "current-tab" with a string, "settings-data"
    with a setting. *)
Theorem posted_messages_are_of_the_protocol h op s :
  forallb well_formed (posted (trace (run h op s))) = true.
Proof.
  destruct (assigned_view op) eqn:Ha.
  - destruct op; try discriminate; reflexivity.
  - apply posts_well_formed_posted with (v := _view (this s)).
    apply (@emits_run posts_well_formed posts_well_formed_silent
             (match listener_view op with Some w => w | None => 0 end)).
    + intros v m Hm. exact Hm.
    + intros v m Hm. exact Hm.
    + exact Ha.
    + destruct (listener_view op); auto.
Qed.


(** ** The other fields *)

Lemma run_keeps_view h op s :
  assigned_view op = None ->
  _view (this (final (run h op s))) = _view (this s).
Proof.
  intros Ha.
  apply (@emits_run (fun _ _ => True) (fun _ _ _ => I)
           (match listener_view op with Some w => w | None => 0 end)
           (fun _ _ _ => I) (fun _ _ _ => I) h op Ha).
  destruct (listener_view op); auto.
Qed.

Lemma run_same_doc h op : respects same_doc (run h op).
Proof.
  assert (Hrefl : forall s, same_doc s s) by reflexivity.
  assert (Htrans : forall s1 s2 s3,
             same_doc s1 s2 -> same_doc s2 s3 -> same_doc s1 s3)
    by (unfold same_doc; congruence).
  assert (Hset : forall p, respects same_doc (set_parser p))
    by (intros p s; reflexivity).
  apply respects_run; try assumption.
  - intros v s. reflexivity.
  - intros A method.
    apply respects_bind; [assumption | now apply respects_this_parser | intros p].
    apply respects_bind; [assumption | apply Hset | intros _].
    now apply respects_ret.
  - intros data.
    apply respects_bind; [assumption | now apply respects_this_parser | intros p].
    repeat (apply respects_bind;
              [assumption | now apply respects_of_outcome | intros ?]).
    apply Hset.
  - intros _ v s. reflexivity.
Qed.

Lemma run_view_stays_defined h op s :
  _view (this s) <> None -> _view (this (final (run h op s))) <> None.
Proof.
  intros Hv. destruct (assigned_view op) eqn:Ha.
  - destruct op; try discriminate; cbn; discriminate.
  - now rewrite run_keeps_view.
Qed.

(** X14.  [this._view] is assigned by [resolveWebviewView] and [revive]
    only, which set it to the view they are given; every other operation
    leaves it as it is, so once there is a view there is one after any
    sequence of events.  [this._doc] is never assigned. *)
Theorem view_assigned_by_resolve_and_revive_only h op s :
  _view (this (final (run h op s))) =
    match assigned_view op with
    | Some v => Some v
    | None => _view (this s)
    end /\
  _doc (this (final (run h op s))) = _doc (this s) /\
  (forall events : list (Host * Operation),
     _view (this s) <> None -> _view (this (run_all events s)) <> None) /\
  (forall events : list (Host * Operation),
     _doc (this (run_all events s)) = _doc (this s)).
Proof.
  split; [| split; [| split]].
  - destruct (assigned_view op) eqn:Ha.
    + destruct op; try discriminate; injection Ha as <-; reflexivity.
    + now apply run_keeps_view.
  - apply run_same_doc.
  - intros events. revert s.
    induction events as [| [h' op'] rest IH]; intros s Hv; cbn [run_all].
    + exact Hv.
    + apply IH. now apply run_view_stays_defined.
  - intros events. revert s.
    induction events as [| [h' op'] rest IH]; intros s; cbn [run_all].
    + reflexivity.
    + rewrite IH. apply run_same_doc.
Qed.

(** ** Between two openings *)

Lemma run_same_parser_object h op :
  ~ replaces_parser op -> respects same_parser_object (run h op).
Proof.
  intros Hop. apply respects_run.
  - apply same_parser_object_refl.
  - apply same_parser_object_trans.
  - apply set_view_same_parser_object.
  - apply call_parser_same_parser_object.
  - apply case_onNodeToggle_same_parser_object.
  - intros Hrep. contradiction.
Qed.

(** X13.  Over any sequence of events that contains neither an "onFile"
    message nor a click on the status button (saves, toggles, visibility
    catch-ups, views resolved again, handlers that throw) the controller
    keeps one and the same parser object. *)
Theorem parser_object_kept_between_openings
  (events : list (Host * Operation)) s p :
  Forall (fun ev => ~ replaces_parser (snd ev)) events ->
  parser (this s) = Some p ->
  exists p', parser (this (run_all events s)) = Some p' /\ oid p' = oid p.
Proof.
  intros Hev. revert s p.
  induction Hev as [| [h op] rest Hop _ IH]; intros s p Hp; cbn [run_all].
  - exists p. auto.
  - destruct (@run_same_parser_object h op Hop s p Hp) as (p1 & Hp1 & E1).
    destruct (IH _ _ Hp1) as (p2 & Hp2 & E2).
    exists p2. split; [assumption | congruence].
Qed.

(** ** Handlers that throw *)

Ltac case_innermost :=
  match goal with
  | |- context [match ?x with _ => _ end] =>
      match x with
      | context [match _ with _ => _ end] => fail 1
      | _ => destruct x eqn:?
      end
  end.

Ltac all_paths :=
  unfold case_onFile, case_onViewFile, case_onSaplingVisible,
    case_onSettingsAcquire, case_onNodeToggle, case_onBoldCheck,
    call_parser, read_parser, this_parser, view_postMessage;
  unfold_monad;
  repeat (case_innermost; cbn).

(** X15.  A handler that throws, by a [TypeError] of its own or by a
    rejected host call (the methods of the parser are taken to return),
    has posted nothing.  Unless it is the status button, it has also
    changed nothing: the listeners check or read everything that can fail
    before they assign or post.  Only the status button can throw after it
    has replaced the parser. *)
Theorem a_throwing_handler_posted_nothing h op s (e : Error) :
  outcome (run h op s) = Thrown e ->
  posted (trace (run h op s)) = [] /\
  (op <> StatusButtonClicked -> final (run h op s) = s).
Proof.
  destruct s as [[v d p] n].
  destruct op; cbn [run].
  - discriminate.
  - discriminate.
  - unfold statusButtonClicked. all_paths;
      intros H; try discriminate H; split; try reflexivity; congruence.
  - discriminate.
  - destruct e0; discriminate.
  - unfold onDidSaveTextDocument. all_paths; intros H; discriminate H.
  - unfold onDidReceiveMessage. all_paths;
      intros H; try discriminate H; split; reflexivity.
  - discriminate.
  - discriminate.
Qed.

(** ** A save while hidden, then the catch-up *)

(** X16.  What a save skipped while the view was hidden is delivered by
    the next "onSaplingVisible" message: its "parsed-data" message carries
    what [getTree] returns on the parser as [updateTree] left it, followed
    by "saved-file" with the file name of that parser's tree. *)
Theorem hidden_save_is_caught_up w h1 h2 (d : TextDocument) data s p :
  parser (this s) = Some p ->
  visible h1 w = false ->
  get_prop data "type" = Returned (VStr "onSaplingVisible") ->
  let saved := onDidSaveTextDocument w h1 d s in
  let st := fst (updateTree (fs h1) (fileName d) (obj p)) in
  trace saved = [] /\
  onDidReceiveMessage w h2 data (final saved) =
    {| final := with_parser s {| oid := oid p; obj := st |};
       trace := [PostMessage w (parsed_data (getTree st));
                 PostMessage w (saved_file (tree_fileName (tree st)))];
       outcome := Returned tt |}.
Proof.
  intros Hp Hhidden Hty saved st. subst saved st.
  rewrite (dispatch w h2 data _ Hty).
  cbn [is_string String.eqb Ascii.eqb Bool.eqb].
  unfold onDidSaveTextDocument, case_onSaplingVisible, call_parser,
    read_parser, this_parser.
  unfold_monad. rewrite Hp. cbn. rewrite Hp. cbn. rewrite Hhidden. cbn.
  split; reflexivity.
Qed.

End Properties.

(** * The controller run on the parser of the spec *)

Import SpecParser.

(** C3 on a run: a save with no parser does nothing; a save of "App.jsx"
    with the parser bound to it posts nothing to a hidden view and one
    "parsed-data" message to a visible one. *)
Lemma save_is_gated_on_visibility_witness :
  onDidSaveTextDocument 0 (host None true) App new_SidebarProvider
    = noop new_SidebarProvider /\
  trace (onDidSaveTextDocument 0 (host None false) App (bound "App.jsx")) = [] /\
  trace (onDidSaveTextDocument 0 (host None true) App (bound "App.jsx"))
    = [PostMessage 0
         (parsed_data {| t_fileName := "App.jsx"; t_revision := 7;
                         t_toggles := [] |})].
Proof.
  split; [| split].
  - apply (proj1 (save_is_gated_on_visibility 0 (host None true) App
                    new_SidebarProvider)).
    reflexivity.
  - apply (proj2 (save_is_gated_on_visibility 0 (host None false) App
                    (bound "App.jsx")) _ eq_refl).
    reflexivity.
  - apply (proj2 (save_is_gated_on_visibility 0 (host None true) App
                    (bound "App.jsx")) _ eq_refl).
    reflexivity.
Defined.

(** C4 on a run: "onSaplingVisible" with no parser does nothing; with the
    parser bound to "App.jsx" it posts the tree and then the file name. *)
Lemma onSaplingVisible_catches_up_witness :
  onDidReceiveMessage 0 (host None true)
    (message "onSaplingVisible" VUndefined) new_SidebarProvider
    = noop new_SidebarProvider /\
  onDidReceiveMessage 0 (host None true)
    (message "onSaplingVisible" VUndefined) (bound "App.jsx")
    = {| final := bound "App.jsx";
         trace := [PostMessage 0
                     (parsed_data {| t_fileName := "App.jsx"; t_revision := 7;
                                     t_toggles := [] |});
                   PostMessage 0 (saved_file "App.jsx")];
         outcome := Returned tt |}.
Proof.
  split.
  - apply (proj1 (onSaplingVisible_catches_up 0 (host None true)
                    (message "onSaplingVisible" VUndefined)
                    new_SidebarProvider eq_refl)).
    reflexivity.
  - apply (proj2 (onSaplingVisible_catches_up 0 (host None true)
                    (message "onSaplingVisible" VUndefined)
                    (bound "App.jsx") eq_refl) _ eq_refl).
Defined.

(** C5 on a run: "App.jsx" then "Nav.jsx" opened in a controller just
    constructed leaves the second parser allocated, bound to "Nav.jsx",
    holding the tree of "Nav.jsx". *)
Lemma onFile_replaces_never_merges_witness :
  let r1 := onDidReceiveMessage 0 (host None true)
              (message "onFile" (VStr "App.jsx")) new_SidebarProvider in
  let r2 := onDidReceiveMessage 0 (host None true)
              (message "onFile" (VStr "Nav.jsx")) (final r1) in
  parser (this (final r2))
    = Some {| oid := 1;
              obj := {| entryFile := VStr "Nav.jsx";
                        current := {| t_fileName := "Nav.jsx"; t_revision := 7;
                                      t_toggles := [] |} |} |}.
Proof.
  assert (H1 : "App.jsx" <> "") by discriminate.
  assert (H2 : "Nav.jsx" <> "") by discriminate.
  assert (H3 : "App.jsx" <> "Nav.jsx") by discriminate.
  exact (proj1 (proj2 (proj2
           (onFile_replaces_never_merges 0 0 (host None true) (host None true)
              new_SidebarProvider H1 H2 H3)))).
Defined.

(** C6 on a run: an "onFile" message with the empty string and an
    "onViewFile" message with no value, sent to a bound controller. *)
Lemma empty_value_is_ignored_witness :
  onDidReceiveMessage 0 (host None true) (message "onFile" (VStr ""))
    (bound "App.jsx") = noop (bound "App.jsx") /\
  onDidReceiveMessage 0 (host None true) (VObj [("type", VStr "onViewFile")])
    (bound "App.jsx") = noop (bound "App.jsx").
Proof.
  split.
  - apply (proj1 (empty_value_is_ignored 0 (host None true)
                    (message "onFile" (VStr "")) (bound "App.jsx")
                    (value := VStr "") eq_refl eq_refl)).
    reflexivity.
  - apply (proj2 (empty_value_is_ignored 0 (host None true)
                    (VObj [("type", VStr "onViewFile")]) (bound "App.jsx")
                    (value := VUndefined) eq_refl eq_refl)).
    reflexivity.
Defined.

(** C8 on a run: a bound controller is still bound after a toggle whose
    value is missing (the handler throws), after any list of events that
    starts with a save, and keeps the same parser object over a save. *)
Lemma parser_once_bound_stays_bound_witness :
  parser (this (final (run (host None true)
                         (MessageReceived 0 (message "onNodeToggle" VUndefined))
                         (bound "App.jsx")))) <> None /\
  parser (this (run_all [(host None true, TextDocumentSaved 0 App);
                         (host None false, StatusButtonClicked)]
                  (bound "App.jsx"))) <> None /\
  exists p', parser (this (final (run (host None true) (TextDocumentSaved 0 App)
                                    (bound "App.jsx")))) = Some p' /\
             oid p' = 0.
Proof.
  assert (Hbound : parser (this (bound "App.jsx")) <> None) by discriminate.
  split; [| split].
  - exact (proj1 (parser_once_bound_stays_bound (host None true)
                    (MessageReceived 0 (message "onNodeToggle" VUndefined))
                    (bound "App.jsx")) Hbound).
  - exact (proj1 (proj2 (parser_once_bound_stays_bound (host None true)
                           (Disposed 0) (bound "App.jsx"))) _ Hbound).
  - exact (proj2 (proj2 (parser_once_bound_stays_bound (host None true)
                           (TextDocumentSaved 0 App) (bound "App.jsx")))
             _ eq_refl (fun H : False => H)).
Defined.

(** C9 on a run: an "onBoldCheck" message received while no editor is
    active throws and leaves the parser of a bound controller alone. *)
Lemma parser_untouched_by_view_only_handlers_witness :
  parser (this (final (onDidReceiveMessage 0 (host None true)
                         (message "onBoldCheck" VUndefined) (bound "App.jsx"))))
  = parser (this (bound "App.jsx")).
Proof.
  apply (proj1 (parser_untouched_by_view_only_handlers 0 (host None true)
                  (bound "App.jsx"))).
  right. right. reflexivity.
Defined.

(** C10, as stated, fails when the view was never resolved: clicking the
    status button on "App.jsx" in a controller just constructed posts no
    message at all, so not two. *)
Lemma statusButtonClicked_without_view_posts_nothing :
  ~ (fileName (document (editing "App.jsx")) <> "" ->
     exists m1 m2 : Message,
       posted (trace (statusButtonClicked (host (Some (editing "App.jsx")) true)
                        new_SidebarProvider)) = [m1; m2]).
Proof.
  intros H. destruct H as (m1 & m2 & H); [discriminate |].
  vm_compute in H. discriminate H.
Qed.

(** The amended C10 on a run: with view [0] resolved, the button on
    "App.jsx" posts the tree and the name; on an untitled document with an
    empty name it does nothing. *)
Lemma statusButtonClicked_with_view_witness :
  trace (statusButtonClicked (host (Some (editing "App.jsx")) false)
           (final (resolveWebviewView 0 new_SidebarProvider)))
    = [PostMessage 0
         (parsed_data {| t_fileName := "App.jsx"; t_revision := 7;
                         t_toggles := [] |});
       PostMessage 0 (saved_file "App.jsx")] /\
  statusButtonClicked (host (Some untitled) true) (bound "App.jsx")
    = noop (bound "App.jsx").
Proof.
  split.
  - assert (Hname : fileName (document (editing "App.jsx")) <> "")
      by discriminate.
    rewrite (proj1 (statusButtonClicked_with_view
                      (host (Some (editing "App.jsx")) false)
                      (final (resolveWebviewView 0 new_SidebarProvider))
                      eq_refl) Hname 0 eq_refl).
    reflexivity.
  - exact (proj2 (statusButtonClicked_with_view (host (Some untitled) true)
                    (bound "App.jsx") eq_refl) eq_refl).
Defined.

(** C2, as stated, fails: the status button clicked on "App.jsx" before
    the view was ever resolved does not complete, it throws. *)
Lemma statusButtonClicked_without_view_does_not_complete :
  ~ (_view (this new_SidebarProvider) = None ->
     outcome (statusButtonClicked (host (Some (editing "App.jsx")) true)
                new_SidebarProvider) = Returned tt).
Proof.
  intros H. specialize (H eq_refl). vm_compute in H. discriminate H.
Qed.

(** The amended C2 on a run, in a controller just constructed: a send
    throws; the button on "App.jsx" throws after binding the first parser
    to it; the button on an untitled document does nothing. *)
Lemma send_without_view_throws_witness :
  outcome (view_postMessage (saved_file "App.jsx") new_SidebarProvider)
    = Thrown TypeError /\
  (let r := statusButtonClicked (host (Some (editing "App.jsx")) true)
              new_SidebarProvider in
   outcome r = Thrown TypeError /\ trace r = [] /\
   option_map oid (parser (this (final r))) = Some 0) /\
  statusButtonClicked (host (Some untitled) true) new_SidebarProvider
    = noop new_SidebarProvider.
Proof.
  pose proof (send_without_view_throws
                (host (Some (editing "App.jsx")) true)
                new_SidebarProvider eq_refl) as (Hsend & Hopen & _).
  pose proof (send_without_view_throws
                (host (Some untitled) true)
                new_SidebarProvider eq_refl) as (_ & _ & Hempty).
  split; [| split].
  - rewrite Hsend. reflexivity.
  - assert (Hname : fileName (document (editing "App.jsx")) <> "")
      by discriminate.
    rewrite (Hopen (editing "App.jsx") eq_refl Hname). repeat split.
  - exact (Hempty untitled eq_refl eq_refl).
Defined.

(** The handlers on a bound controller, for the record: a toggle is kept by
    the parser and survives a save; a toggle without a value throws. *)
Example toggle_then_save :
  let toggled := final (onDidReceiveMessage 0 (host None true)
                          (message "onNodeToggle"
                             (VObj [("id", VStr "n1"); ("expanded", VBool true)]))
                          (bound "App.jsx")) in
  trace (onDidSaveTextDocument 0 (host None true) App toggled)
  = [PostMessage 0
       (parsed_data {| t_fileName := "App.jsx"; t_revision := 7;
                       t_toggles := [(VStr "n1", VBool true)] |})].
Proof. reflexivity. Qed.

Example toggle_without_value :
  onDidReceiveMessage 0 (host None true) (VObj [("type", VStr "onNodeToggle")])
    (bound "App.jsx")
  = {| final := bound "App.jsx"; trace := []; outcome := Thrown TypeError |}.
Proof. reflexivity. Qed.

(** * The further properties on runs *)

(** X1 on a run: a message of an unknown type and a bare string are
    ignored; [null] makes the handler throw. *)
Lemma message_outside_the_switch_witness :
  onDidReceiveMessage 0 (host None true) (message "onRefresh" VUndefined)
    (bound "App.jsx") = noop (bound "App.jsx") /\
  onDidReceiveMessage 0 (host None true) (VStr "onFile") (bound "App.jsx")
    = noop (bound "App.jsx") /\
  outcome (onDidReceiveMessage 0 (host None true) VNull (bound "App.jsx"))
    = Thrown TypeError.
Proof.
  pose proof (message_outside_the_switch 0 (host None true) (bound "App.jsx"))
    as [Hunknown Hnullish].
  split; [| split].
  - exact (Hunknown (message "onRefresh" VUndefined) (VStr "onRefresh")
             eq_refl eq_refl).
  - exact (Hunknown (VStr "onFile") VUndefined eq_refl eq_refl).
  - rewrite (Hnullish VNull (or_intror eq_refl)). reflexivity.
Defined.

(** X2 on a run: "Nav.jsx" is opened and then shown. *)
Lemma onViewFile_opens_then_shows_witness :
  let r := onDidReceiveMessage 0 (host None true)
             (message "onViewFile" (VStr "Nav.jsx")) (bound "App.jsx") in
  final r = bound "App.jsx" /\
  trace r = [OpenTextDocument (VStr "Nav.jsx");
             ShowTextDocument {| fileName := "Nav.jsx" |}] /\
  outcome r = Returned tt.
Proof.
  pose proof (onViewFile_opens_then_shows 0 (host None true)
                (message "onViewFile" (VStr "Nav.jsx")) (bound "App.jsx")
                (value := VStr "Nav.jsx") eq_refl eq_refl eq_refl)
    as (Hfinal & _ & _ & Hshown).
  destruct (Hshown {| fileName := "Nav.jsx" |} eq_refl) as [Htrace Hout].
  split; [exact Hfinal | split; [exact Htrace | exact Hout]].
Defined.

(** X3 on a run: a toggle of node "n1" reaches the parser of "App.jsx";
    a toggle with a [null] value throws. *)
Lemma onNodeToggle_forwards_to_the_parser_witness :
  let toggle := VObj [("id", VStr "n1"); ("expanded", VBool false)] in
  option_map (fun p => t_toggles (current (obj p)))
    (parser (this (final (onDidReceiveMessage 0 (host None true)
                            (message "onNodeToggle" toggle) (bound "App.jsx")))))
    = Some [(VStr "n1", VBool false)] /\
  onDidReceiveMessage 0 (host None true) (message "onNodeToggle" VNull)
    (bound "App.jsx")
    = {| final := bound "App.jsx"; trace := []; outcome := Thrown TypeError |}.
Proof.
  cbv zeta. split.
  - rewrite (proj1 (onNodeToggle_forwards_to_the_parser 0 (host None true)
                      (message "onNodeToggle"
                         (VObj [("id", VStr "n1"); ("expanded", VBool false)]))
                      (bound "App.jsx") eq_refl eq_refl eq_refl)
               (VStr "n1") (VBool false) eq_refl eq_refl).
    reflexivity.
  - exact (proj2 (onNodeToggle_forwards_to_the_parser 0 (host None true)
                    (message "onNodeToggle" VNull)
                    (bound "App.jsx") eq_refl eq_refl eq_refl)
             (or_intror eq_refl)).
Defined.

(** X4 on a run: after [revive 5], the listener of view [0] answers
    "onBoldCheck" on view [5]. *)
Lemma onBoldCheck_posts_to_this_view_witness :
  trace (onDidReceiveMessage 0 (host (Some (editing "Nav.jsx")) true)
           (message "onBoldCheck" VUndefined)
           (final (revive 5 (bound "App.jsx"))))
  = [PostMessage 5 (current_tab "Nav.jsx")].
Proof.
  rewrite (onBoldCheck_posts_to_this_view 0
             (host (Some (editing "Nav.jsx")) true)
             (message "onBoldCheck" VUndefined)
             (final (revive 5 (bound "App.jsx")))
             eq_refl eq_refl eq_refl).
  reflexivity.
Defined.

(** X5 on a run: with all tabs closed, the button and "onBoldCheck"
    throw. *)
Lemma no_active_editor_throws_witness :
  outcome (statusButtonClicked (host None true) (bound "App.jsx"))
    = Thrown TypeError /\
  outcome (onDidReceiveMessage 0 (host None true)
             (message "onBoldCheck" VUndefined) (bound "App.jsx"))
    = Thrown TypeError.
Proof.
  pose proof (no_active_editor_throws 0 (host None true)
                (message "onBoldCheck" VUndefined) (bound "App.jsx") eq_refl)
    as [Hbutton Hbold].
  split.
  - rewrite Hbutton. reflexivity.
  - rewrite (Hbold eq_refl). reflexivity.
Defined.

(** X6 on a run: the settings requested by the view. *)
Lemma settings_paths_agree_witness :
  onDidReceiveMessage 0 (host None false)
    (message "onSettingsAcquire" VUndefined) new_SidebarProvider
  = {| final := new_SidebarProvider;
       trace := [PostMessage 0 (settings_data (VStr "tree"))];
       outcome := Returned tt |}.
Proof.
  destruct (settings_paths_agree 0 (host None false)
              (message "onSettingsAcquire" VUndefined) new_SidebarProvider
              eq_refl) as [Hsame Hposts].
  rewrite Hsame. exact Hposts.
Defined.

(** X7 on a run: the catch-up does the same with the views hidden. *)
Lemma only_the_save_listener_reads_visibility_witness :
  run (with_visible (host None true) (fun _ => false))
    (MessageReceived 0 (message "onSaplingVisible" VUndefined))
    (bound "App.jsx")
  = run (host None true)
      (MessageReceived 0 (message "onSaplingVisible" VUndefined))
      (bound "App.jsx").
Proof.
  exact (proj2 (only_the_save_listener_reads_visibility (host None true)
                  (fun _ => false)
                  (MessageReceived 0 (message "onSaplingVisible" VUndefined))
                  (bound "App.jsx")) eq_refl).
Defined.

(** X10 on a run: the button after the view was resolved. *)
Lemma statusButtonClicked_after_view_assigned_witness :
  targets (trace (statusButtonClicked (host (Some (editing "App.jsx")) false)
                    (final (resolveWebviewView 3 new_SidebarProvider))))
  = [3; 3].
Proof.
  assert (Hname : fileName (document (editing "App.jsx")) <> "")
    by discriminate.
  rewrite (proj1 (@statusButtonClicked_after_view_assigned _
                    (host (Some (editing "App.jsx")) false)
                    new_SidebarProvider (editing "App.jsx") 3 eq_refl Hname)).
  reflexivity.
Defined.

(** X11 on a run: an object sent as the value of "onFile" is truthy and
    gets a parser. *)
Lemma onFile_opens_whatever_is_truthy_witness :
  option_map (fun p => entryFile (obj p))
    (parser (this (final (onDidReceiveMessage 0 (host None false)
                            (message "onFile" (VObj []))
                            new_SidebarProvider))))
  = Some (VObj []).
Proof.
  rewrite (onFile_opens_whatever_is_truthy 0 (host None false)
             (message "onFile" (VObj [])) new_SidebarProvider
             (value := VObj []) eq_refl eq_refl eq_refl).
  reflexivity.
Defined.


(** X13 on a run: a save, a toggle that throws and a view resolved again
    leave the parser allocated first in place. *)
Lemma parser_object_kept_between_openings_witness :
  exists p',
    parser (this (run_all
                    [(host None true, TextDocumentSaved 0 App);
                     (host None true,
                      MessageReceived 0 (message "onNodeToggle" VUndefined));
                     (host None false, ResolveWebviewView 1)]
                    (bound "App.jsx"))) = Some p' /\
    oid p' = 0.
Proof.
  apply (@parser_object_kept_between_openings _
           [(host None true, TextDocumentSaved 0 App);
            (host None true,
             MessageReceived 0 (message "onNodeToggle" VUndefined));
            (host None false, ResolveWebviewView 1)]
           (bound "App.jsx")
           (@Build_SaplingParser api 0
              (fst (fullParse (fun _ => 7) (bindFile (VStr "App.jsx")))))).
  - repeat constructor; cbn; intros H; try discriminate H; exact H.
  - reflexivity.
Defined.

(** X14 on a run: the view of a bound controller survives a save and a
    click on the button. *)
Lemma view_assigned_by_resolve_and_revive_only_witness :
  _view (this (run_all [(host None true, TextDocumentSaved 0 App);
                        (host None false, StatusButtonClicked)]
                 (bound "App.jsx"))) <> None.
Proof.
  assert (Hview : _view (this (bound "App.jsx")) <> None) by discriminate.
  exact (proj1 (proj2 (proj2
           (view_assigned_by_resolve_and_revive_only (host None true)
              (Disposed 0) (bound "App.jsx")))) _ Hview).
Defined.

(** X15 on a run: a toggle without a value throws and leaves everything
    as it was. *)
Lemma a_throwing_handler_posted_nothing_witness :
  final (run (host None true)
           (MessageReceived 0 (message "onNodeToggle" VUndefined))
           (bound "App.jsx")) = bound "App.jsx".
Proof.
  apply (@a_throwing_handler_posted_nothing _ (host None true)
           (MessageReceived 0 (message "onNodeToggle" VUndefined))
           (bound "App.jsx") TypeError eq_refl).
  discriminate.
Defined.

(** X16 on a run: "App.jsx" saved while hidden, then the view shown. *)
Lemma hidden_save_is_caught_up_witness :
  trace (onDidReceiveMessage 0 (host None true)
           (message "onSaplingVisible" VUndefined)
           (final (onDidSaveTextDocument 0 (host None false) App
                     (bound "App.jsx"))))
  = [PostMessage 0
       (parsed_data {| t_fileName := "App.jsx"; t_revision := 7;
                       t_toggles := [] |});
     PostMessage 0 (saved_file "App.jsx")].
Proof.
  rewrite (proj2 (@hidden_save_is_caught_up _ 0 (host None false)
                    (host None true) App
                    (message "onSaplingVisible" VUndefined)
                    (bound "App.jsx")
                    (@Build_SaplingParser api 0
                       (fst (fullParse (fun _ => 7)
                               (bindFile (VStr "App.jsx")))))
                    eq_refl eq_refl eq_refl)).
  reflexivity.
Defined.
